(** * compasscard: usage CSV decoder and month cache

    A shallow embedding of [compasscard.go] (the decoder: [parseAmount],
    [parseUsageRecord], [Parse]) and of [cmd/server/main.go] (the month
    cache: [isCurrentMonth], [lookup], [lookupAndCache], [ServeHTTP]),
    together with models of the Go library calls they make
    ([strings.Replace], [strconv.ParseFloat], [strconv.Atoi],
    [time.Parse], [time.Date], [Time.AddDate], [Time.Format],
    [csv.Reader.Read]). *)

From Stdlib Require Import ZArith Lia Bool Ascii String List DecimalString.
From Stdlib Require Import Floats.SpecFloat.
From stdpp Require Import base option list strings gmap.

Local Open Scope string_scope.
Local Open Scope Z_scope.

(** ** Go values

    A Go [string] and a [[]byte] are byte sequences: Rocq's [string], whose
    characters are the 256 values of [ascii]. *)

Definition byte_val (c : ascii) : Z := Z.of_N (N_of_ascii c).

Definition isDigit (c : ascii) : bool :=
  (48 <=? byte_val c) && (byte_val c <=? 57).

Definition digit_val (c : ascii) : Z := byte_val c - 48.

(** [lower(c)] of strconv: [c | ('x' - 'X')]. *)
Definition lower (c : ascii) : Z := Z.lor (byte_val c) 32.

Definition len (s : string) : Z := Z.of_nat (String.length s).

(** Errors are Go [error] values; [None] is [nil]. *)
Inductive numErr := ErrSyntax | ErrRange.

Inductive csvErr := ErrBareQuote | ErrQuote | ErrFieldCount.

Inductive error :=
| EOF                                            (* io.EOF *)
| NumError (func num : string) (kind : numErr)   (* *strconv.NumError *)
| TimeParseError (layout value : string)         (* *time.ParseError *)
| CsvParseError (kind : csvErr)                  (* *csv.ParseError *)
| PathError (op path : string)                   (* *os.PathError *)
| TransportError (msg : string).                 (* net/http, x/net/html *)

(** What a call does: it returns, it panics (an index out of range), or the
    model's loop bound is used up ([Diverges], shown unreachable below). *)
Inductive panic :=
| IndexOutOfRange (index length : Z)
| NilDereference.

Inductive Outcome (A : Type) :=
| Ok (a : A)
| Panics (p : panic)
| Diverges.
Arguments Ok {A} a.
Arguments Panics {A} p.
Arguments Diverges {A}.

#[global] Instance Outcome_ret : MRet Outcome := fun _ a => Ok a.

#[global] Instance Outcome_bind : MBind Outcome := fun _ _ k m =>
  match m with
  | Ok a => k a
  | Panics p => Panics p
  | Diverges => Diverges
  end.

(** ** package strings *)

Module strings.

Fixpoint HasPrefix (s prefix : string) : bool :=
  match prefix, s with
  | EmptyString, _ => true
  | String p prefix', String c s' =>
      if Ascii.eqb c p then HasPrefix s' prefix' else false
  | String _ _, EmptyString => false
  end.

(** [Replace(s, old, new, n)] for a non-empty [old]: the first [n]
    non-overlapping occurrences of [old], found left to right, are
    replaced by [new]; every occurrence when [n < 0].  [skip] counts the
    bytes of a matched occurrence that are still to be dropped.  (For an
    empty [old] Go inserts [new] around every rune; the decoder never
    calls it so.) *)
Fixpoint replaceFrom (s old new : string) (n : Z) (skip : nat) : string :=
  match s with
  | EmptyString => EmptyString
  | String c s' =>
      match skip with
      | S k => replaceFrom s' old new n k
      | O =>
          if (n =? 0) then s
          else if HasPrefix s old
               then new ++ replaceFrom s' old new (if n <? 0 then n else n - 1)
                                       (Nat.pred (String.length old))
               else String c (replaceFrom s' old new n O)
      end
  end.

Definition Replace (s old new : string) (n : Z) : string :=
  if String.eqb old new || (n =? 0) then s
  else replaceFrom s old new n O.

(** [s] without the bytes equal to [c]. *)
Fixpoint without (c : ascii) (s : string) : string :=
  match s with
  | EmptyString => EmptyString
  | String d s' =>
      if Ascii.eqb d c then without c s' else String d (without c s')
  end.

(** [s[:i]] and [s[i+1:]] for the first index [i] of byte [c] in [s]. *)
Fixpoint cut (c : ascii) (s : string) : option (string * string) :=
  match s with
  | EmptyString => None
  | String d s' =>
      if Ascii.eqb d c then Some (EmptyString, s')
      else match cut c s' with
           | Some (before, after) => Some (String d before, after)
           | None => None
           end
  end.

Definition contains (c : ascii) (s : string) : bool :=
  match cut c s with Some _ => true | None => false end.

End strings.

(** ** package strconv *)

Module strconv.

(** [float64]: IEEE 754 binary64, as the Standard Library specifies it. *)
Definition float64 := spec_float.
Definition prec : Z := 53.
Definition emax : Z := 1024.

(** The binary64 nearest to [±mant * 10^e10] (ties to even), which is
    what [ParseFloat] returns for a decimal literal. *)
Definition roundDecimal (neg : bool) (mant e10 : Z) : float64 :=
  match mant with
  | Z0 => S754_zero neg
  | Zpos m =>
      if 0 <=? e10
      then binary_round prec emax neg (Z.to_pos (Zpos m * 10 ^ e10)) 0
      else let '(mz, ez, lz) :=
             SFdiv_core_binary prec emax (Zpos m) 0 (10 ^ (- e10)) 0 in
           binary_round_aux prec emax neg mz ez lz
  | Zneg _ => S754_nan
  end.

(** [equalIgnoreCase]: equal up to the case of ASCII letters. *)
Fixpoint equalIgnoreCase (s t : string) : bool :=
  match s, t with
  | EmptyString, EmptyString => true
  | String c s', String d t' =>
      (Z.lor (byte_val c) 32 =? Z.lor (byte_val d) 32) &&
      ((Ascii.eqb c d) ||
       ((97 <=? Z.lor (byte_val c) 32) && (Z.lor (byte_val c) 32 <=? 122))) &&
      equalIgnoreCase s' t'
  | _, _ => false
  end.

(** [special]: the spellings of infinity and NaN, in any case. *)
Definition special (s : string) : option float64 :=
  if equalIgnoreCase s "inf" || equalIgnoreCase s "infinity" ||
     equalIgnoreCase s "+inf" || equalIgnoreCase s "+infinity"
  then Some (S754_infinity false)
  else if equalIgnoreCase s "-inf" || equalIgnoreCase s "-infinity"
  then Some (S754_infinity true)
  else if equalIgnoreCase s "nan" then Some S754_nan
  else None.

(** State of [readFloat]'s digit loop: [mant] is the integer written by
    the significant digits read so far, [nd] their number, [dp] the
    position of the decimal point among them. *)
Record mantissa := mkMantissa {
  sawdot : bool; sawdigits : bool; nd : Z; dp : Z; mant : Z }.

Fixpoint readDigits (s : string) (m : mantissa) : mantissa * string :=
  match s with
  | EmptyString => (m, s)
  | String c s' =>
      if Ascii.eqb c "."
      then if sawdot m then (m, s)
           else readDigits s' (mkMantissa true (sawdigits m) (nd m) (nd m) (mant m))
      else if isDigit c
      then if Ascii.eqb c "0" && (nd m =? 0)
           then readDigits s' (mkMantissa (sawdot m) true (nd m) (dp m - 1) (mant m))
           else readDigits s' (mkMantissa (sawdot m) true (nd m + 1) (dp m)
                                          (mant m * 10 + digit_val c))
      else (m, s)
  end.

(** The exponent's digits; [e] stops growing at 10000, as in
    [readFloat]. *)
Fixpoint readExpDigits (s : string) (e : Z) : option Z :=
  match s with
  | EmptyString => Some e
  | String c s' =>
      if isDigit c
      then readExpDigits s' (if e <? 10000 then e * 10 + digit_val c else e)
      else None
  end.

(** The exponent part, which must reach the end of the input: [Some e]
    is the signed exponent, [None] a syntax error. *)
Definition readExponent (s : string) : option Z :=
  match s with
  | EmptyString => Some 0
  | String c s' =>
      if lower c =? 101 (* 'e' *)
      then match s' with
           | EmptyString => None
           | String d s'' =>
               let '(esign, ds) :=
                 if Ascii.eqb d "+" then (1, s'')
                 else if Ascii.eqb d "-" then (-1, s'')
                 else (1, s') in
               match ds with
               | EmptyString => None
               | String d0 _ =>
                   if isDigit d0
                   then match readExpDigits ds 0 with
                        | Some e => Some (e * esign)
                        | None => None
                        end
                   else None
               end
           end
      else None
  end.

(** [readFloat] followed by the conversion: sign, digits with at most one
    point, optional exponent, nothing after it. *)
Definition readFloat (s : string) : option (bool * Z * Z) :=
  match s with
  | EmptyString => None
  | String c s' =>
      let '(neg, ds) :=
        if Ascii.eqb c "+" then (false, s')
        else if Ascii.eqb c "-" then (true, s')
        else (false, s) in
      let '(m, rest) := readDigits ds (mkMantissa false false 0 0 0) in
      if sawdigits m
      then let dp0 := if sawdot m then dp m else nd m in
           match readExponent rest with
           | Some e => Some (neg, mant m, dp0 + e - nd m)
           | None => None
           end
      else None
  end.

(** [ParseFloat(s, 64)] on decimal input, as Go has it since 1.0: the
    pair [(value, err)].  A syntax error returns [0]; a value beyond the
    binary64 range returns the infinity of its sign with [ErrRange].
    (Hexadecimal mantissas and [_] between digits, accepted from Go 1.13
    on, are syntax errors here, as they were when the decoder was
    written.) *)
Definition ParseFloat (s : string) : float64 * option error :=
  match special s with
  | Some f => (f, None)
  | None =>
      match readFloat s with
      | None => (S754_zero false, Some (NumError "ParseFloat" s ErrSyntax))
      | Some (neg, mant, e10) =>
          match roundDecimal neg mant e10 with
          | S754_infinity sg =>
              (S754_infinity sg, Some (NumError "ParseFloat" s ErrRange))
          | f => (f, None)
          end
      end
  end.

(** The binary64 that is exactly [m * 2^e], for reading results. *)
Definition dyadic (m e : Z) : float64 := binary_normalize prec emax m e false.

(** The value of a finite binary64 as a fraction in lowest terms. *)
Definition ratio (f : float64) : option (Z * Z) :=
  match f with
  | S754_zero _ => Some (0, 1)
  | S754_finite s m e =>
      let n := if s then Zneg m else Zpos m in
      if 0 <=? e then Some (n * 2 ^ e, 1)
      else let g := Z.gcd n (2 ^ (- e)) in Some (n / g, 2 ^ (- e) / g)
  | _ => None
  end.

Fixpoint readInt (s : string) (n : Z) : option Z :=
  match s with
  | EmptyString => Some n
  | String c s' => if isDigit c then readInt s' (n * 10 + digit_val c) else None
  end.

(** [Atoi(s)]: an optional sign and at least one decimal digit, nothing
    else; a value outside the 64-bit [int] is clamped and reported with
    [ErrRange]. *)
Definition Atoi (s : string) : Z * option error :=
  match s with
  | EmptyString => (0, Some (NumError "Atoi" s ErrSyntax))
  | String c s' =>
      let '(neg, ds) :=
        if Ascii.eqb c "+" then (false, s')
        else if Ascii.eqb c "-" then (true, s')
        else (false, s) in
      match ds with
      | EmptyString => (0, Some (NumError "Atoi" s ErrSyntax))
      | _ =>
          match readInt ds 0 with
          | None => (0, Some (NumError "Atoi" s ErrSyntax))
          | Some n =>
              if negb neg && (2 ^ 63 <=? n)
              then (2 ^ 63 - 1, Some (NumError "Atoi" s ErrRange))
              else if neg && (2 ^ 63 <? n)
              then (- 2 ^ 63, Some (NumError "Atoi" s ErrRange))
              else (if neg then - n else n, None)
          end
      end
  end.

End strconv.

(** ** package time

    A [Time] is an instant with the offset of its location: [wall] counts
    the nanoseconds since 0001-01-01 00:00:00 UTC, [offset] the seconds
    east of UTC at which the instant is presented ([time.UTC] is 0).
    Locations are fixed offsets; integers are unbounded, so the 64-bit
    wrap-around of dates some 292 billion years away is left out. *)

Module time.

Record Time := mkTime { wall : Z; offset : Z }.

Definition UTC : Z := 0.

Definition secondsPerMinute : Z := 60.
Definition secondsPerHour : Z := 60 * secondsPerMinute.
Definition secondsPerDay : Z := 24 * secondsPerHour.
Definition daysPer400Years : Z := 365 * 400 + 97.
Definition daysPer100Years : Z := 365 * 100 + 24.
Definition daysPer4Years : Z := 365 * 4 + 1.

Definition January : Z := 1.
Definition February : Z := 2.
Definition March : Z := 3.

(** [daysBefore[m]]: the days of a non-leap year before month [m+1]. *)
Definition daysBefore (m : Z) : Z :=
  nth (Z.to_nat m)
      [0; 31; 59; 90; 120; 151; 181; 212; 243; 273; 304; 334; 365] 0.

Definition isLeap (year : Z) : bool :=
  (Z.rem year 4 =? 0) &&
  (negb (Z.rem year 100 =? 0) || (Z.rem year 400 =? 0)).

Definition daysIn (m year : Z) : Z :=
  if (m =? February) && isLeap year then 29
  else daysBefore m - daysBefore (m - 1).

(** [norm(hi, lo, base)]: [lo] brought into [0, base), the excess
    carried into [hi]. *)
Definition norm (hi lo base : Z) : Z * Z :=
  let '(hi, lo) :=
    if lo <? 0
    then let n := Z.quot (- lo - 1) base + 1 in (hi - n, lo + n * base)
    else (hi, lo) in
  if base <=? lo
  then let n := Z.quot lo base in (hi + n, lo - n * base)
  else (hi, lo).

(** Days from 0001-01-01 to January 1st of [year], by 400-, 100- and
    4-year cycles. *)
Definition daysSinceEpoch (year : Z) : Z :=
  let y := year - 1 in
  let n := y / 400 in
  let y := y - 400 * n in
  let d := daysPer400Years * n in
  let n := y / 100 in
  let y := y - 100 * n in
  let d := d + daysPer100Years * n in
  let n := y / 4 in
  let y := y - 4 * n in
  let d := d + daysPer4Years * n in
  d + 365 * y.

(** [Date(year, month, day, hour, min, sec, nsec, loc)]: the fields are
    normalised, so the 32nd of October is the 1st of November and month
    13 is January of the next year. *)
Definition Date (year month day hour min sec nsec loc : Z) : Time :=
  let '(year, m) := norm year (month - 1) 12 in
  let month := m + 1 in
  let '(sec, nsec) := norm sec nsec 1000000000 in
  let '(min, sec) := norm min sec 60 in
  let '(hour, min) := norm hour min 60 in
  let '(day, hour) := norm day hour 24 in
  let d := daysSinceEpoch year in
  let d := d + daysBefore (month - 1) in
  let d := if isLeap year && (March <=? month) then d + 1 else d in
  let d := d + (day - 1) in
  let abs := d * secondsPerDay in
  let abs := abs + (hour * secondsPerHour + min * secondsPerMinute + sec) in
  mkTime ((abs - loc) * 1000000000 + nsec) loc.

(** [t.abs()]: seconds since the epoch on the clock of [t]'s location. *)
Definition abs (t : Time) : Z := wall t / 1000000000 + offset t.

Definition nsec (t : Time) : Z := wall t mod 1000000000.

(** [absDate]: year and day of the year (from 0) of a day count. *)
Definition absYear (days : Z) : Z * Z :=
  let d := days in
  let n := d / daysPer400Years in
  let y := 400 * n in
  let d := d - daysPer400Years * n in
  let n := d / daysPer100Years in
  let n := n - Z.shiftr n 2 in
  let y := y + 100 * n in
  let d := d - daysPer100Years * n in
  let n := d / daysPer4Years in
  let y := y + 4 * n in
  let d := d - daysPer4Years * n in
  let n := d / 365 in
  let n := n - Z.shiftr n 2 in
  let y := y + n in
  let d := d - 365 * n in
  (y + 1, d).

(** [absDate], continued: month and day of the month. *)
Definition absDate (days : Z) : Z * Z * Z :=
  let '(year, yday) := absYear days in
  let leapDay := isLeap year && (yday =? 31 + 29 - 1) in
  let day := if isLeap year && (31 + 29 - 1 <? yday) then yday - 1 else yday in
  if leapDay then (year, February, 29)
  else
    let month := day / 31 in
    let end_ := daysBefore (month + 1) in
    let '(month, begin) :=
      if end_ <=? day then (month + 1, end_) else (month, daysBefore month) in
    (year, month + 1, day - begin + 1).

Definition Year (t : Time) : Z := fst (fst (absDate (abs t / secondsPerDay))).
Definition Month (t : Time) : Z := snd (fst (absDate (abs t / secondsPerDay))).
Definition Day (t : Time) : Z := snd (absDate (abs t / secondsPerDay)).

(** [absClock]: hour, minute and second within the day. *)
Definition Clock (t : Time) : Z * Z * Z :=
  let sec := abs t mod secondsPerDay in
  let hour := sec / secondsPerHour in
  let sec := sec - hour * secondsPerHour in
  let min := sec / secondsPerMinute in
  let sec := sec - min * secondsPerMinute in
  (hour, min, sec).

Definition AddDate (t : Time) (years months days : Z) : Time :=
  let '(hour, min, sec) := Clock t in
  Date (Year t + years) (Month t + months) (Day t + days)
       hour min sec (nsec t) (offset t).

Definition After (t u : Time) : bool := wall u <? wall t.
Definition Before (t u : Time) : bool := wall t <? wall u.

(** [appendInt(b, x, width)]: decimal, zero-padded to [width] digits,
    after a minus sign for a negative [x]. *)
Definition digits (n : Z) : string :=
  DecimalString.NilZero.string_of_uint (N.to_uint (Z.to_N n)).

Fixpoint zeros (n : nat) : string :=
  match n with O => "" | S k => String "0" (zeros k) end.

Definition appendInt (x : Z) (width : nat) : string :=
  let ds := digits (Z.abs x) in
  (if x <? 0 then "-" else "") ++ zeros (width - String.length ds) ++ ds.

(** [t.Format("2006-01")]: the layout is the long year, a dash and the
    zero-padded month (see [monthKey_layout] below). *)
Definition FormatYearMonth (t : Time) : string :=
  appendInt (Year t) 4 ++ "-" ++ appendInt (Month t) 2.

(** *** Parsing *)

Definition shortMonthNames : list string :=
  ["Jan"; "Feb"; "Mar"; "Apr"; "May"; "Jun";
   "Jul"; "Aug"; "Sep"; "Oct"; "Nov"; "Dec"].

(** [match] on a prefix of [val]: [v] up to the case of letters; the
    rest of [val] on success. *)
Fixpoint matchPrefix (val v : string) : option string :=
  match v, val with
  | EmptyString, _ => Some val
  | String c2 v', String c1 val' =>
      if Ascii.eqb c1 c2 then matchPrefix val' v'
      else
        let l1 := Z.lor (byte_val c1) 32 in
        let l2 := Z.lor (byte_val c2) 32 in
        if negb (l1 =? l2) || (l1 <? 97) || (122 <? l1) then None
        else matchPrefix val' v'
  | String _ _, EmptyString => None
  end.

Fixpoint lookup (tab : list string) (val : string) (i : Z) : option (Z * string) :=
  match tab with
  | [] => None
  | v :: tab' =>
      match matchPrefix val v with
      | Some rest => Some (i, rest)
      | None => lookup tab' val (i + 1)
      end
  end.

(** [getnum(s, fixed)]: one or two digits, exactly two when [fixed]. *)
Definition getnum (s : string) (fixed : bool) : option (Z * string) :=
  match s with
  | String c0 s1 =>
      if isDigit c0
      then match s1 with
           | String c1 s2 =>
               if isDigit c1 then Some (digit_val c0 * 10 + digit_val c1, s2)
               else if fixed then None else Some (digit_val c0, s1)
           | EmptyString => if fixed then None else Some (digit_val c0, s1)
           end
      else None
  | EmptyString => None
  end.

Fixpoint cutspace (s : string) : string :=
  match s with
  | String c s' => if Ascii.eqb c " " then cutspace s' else s
  | EmptyString => s
  end.

(** [skip(value, prefix)]: the literal text between two layout elements.
    A run of spaces in the layout matches any run of spaces in the value;
    [cutting] is set while the rest of such a run is passed over. *)
Fixpoint skipFrom (cutting : bool) (value prefix : string) : option string :=
  match prefix with
  | EmptyString => Some value
  | String p prefix' =>
      if Ascii.eqb p " "
      then if cutting then skipFrom true value prefix'
           else match value with
                | String v _ =>
                    if Ascii.eqb v " " then skipFrom true (cutspace value) prefix'
                    else None
                | EmptyString => skipFrom true value prefix'
                end
      else match value with
           | String v value' =>
               if Ascii.eqb v p then skipFrom false value' prefix' else None
           | EmptyString => None
           end
  end.

Definition skip (value prefix : string) : option string :=
  skipFrom false value prefix.

(** The elements of a layout. *)
Inductive std :=
| stdLongMonth | stdMonth | stdNumMonth | stdZeroMonth
| stdLongWeekDay | stdWeekDay
| stdDay | stdUnderDay | stdZeroDay | stdUnderYearDay | stdZeroYearDay
| stdHour | stdHour12 | stdZeroHour12
| stdMinute | stdZeroMinute | stdSecond | stdZeroSecond
| stdLongYear | stdYear
| stdPM | stdpm
| stdTZ
| stdISO8601TZ | stdISO8601SecondsTZ | stdISO8601ShortTZ
| stdISO8601ColonTZ | stdISO8601ColonSecondsTZ
| stdNumTZ | stdNumSecondsTz | stdNumShortTZ
| stdNumColonTZ | stdNumColonSecondsTZ
| stdFracSecond0 (digits : nat) | stdFracSecond9 (digits : nat).

Definition startsWithLowerCase (str : string) : bool :=
  match str with
  | String c _ => (97 <=? byte_val c) && (byte_val c <=? 122)
  | EmptyString => false
  end.

Fixpoint drop (n : nat) (s : string) : string :=
  match n, s with
  | S k, String _ s' => drop k s'
  | _, _ => s
  end.

(** The run of [ch] at the head of [s]: its length and what follows. *)
Fixpoint run (ch : ascii) (s : string) : nat * string :=
  match s with
  | String c s' =>
      if Ascii.eqb c ch then let '(n, rest) := run ch s' in (S n, rest)
      else (O, s)
  | EmptyString => (O, s)
  end.

(** One step of [nextStdChunk]: the element that starts at the head of
    [layout], if any, with the literal text the element leaves in front of
    itself (only [_2006] does) and the number of bytes it takes. *)
Definition stdAt (layout : string) : option (string * std * nat) :=
  let has := strings.HasPrefix layout in
  match layout with
  | EmptyString => None
  | String c rest =>
      if Ascii.eqb c "J" then
        if has "January" then Some ("", stdLongMonth, 7%nat)
        else if has "Jan" && negb (startsWithLowerCase (drop 3 layout))
        then Some ("", stdMonth, 3%nat) else None
      else if Ascii.eqb c "M" then
        if has "Monday" then Some ("", stdLongWeekDay, 6%nat)
        else if has "Mon" && negb (startsWithLowerCase (drop 3 layout))
        then Some ("", stdWeekDay, 3%nat)
        else if has "MST" then Some ("", stdTZ, 3%nat) else None
      else if Ascii.eqb c "0" then
        if has "01" then Some ("", stdZeroMonth, 2%nat)
        else if has "02" then Some ("", stdZeroDay, 2%nat)
        else if has "03" then Some ("", stdZeroHour12, 2%nat)
        else if has "04" then Some ("", stdZeroMinute, 2%nat)
        else if has "05" then Some ("", stdZeroSecond, 2%nat)
        else if has "06" then Some ("", stdYear, 2%nat)
        else if has "002" then Some ("", stdZeroYearDay, 3%nat) else None
      else if Ascii.eqb c "1" then
        if has "15" then Some ("", stdHour, 2%nat)
        else Some ("", stdNumMonth, 1%nat)
      else if Ascii.eqb c "2" then
        if has "2006" then Some ("", stdLongYear, 4%nat)
        else Some ("", stdDay, 1%nat)
      else if Ascii.eqb c "_" then
        if has "_2006" then Some ("_", stdLongYear, 5%nat)
        else if has "_2" then Some ("", stdUnderDay, 2%nat)
        else if has "__2" then Some ("", stdUnderYearDay, 3%nat) else None
      else if Ascii.eqb c "3" then Some ("", stdHour12, 1%nat)
      else if Ascii.eqb c "4" then Some ("", stdMinute, 1%nat)
      else if Ascii.eqb c "5" then Some ("", stdSecond, 1%nat)
      else if Ascii.eqb c "P" then
        if has "PM" then Some ("", stdPM, 2%nat) else None
      else if Ascii.eqb c "p" then
        if has "pm" then Some ("", stdpm, 2%nat) else None
      else if Ascii.eqb c "-" then
        if has "-070000" then Some ("", stdNumSecondsTz, 7%nat)
        else if has "-07:00:00" then Some ("", stdNumColonSecondsTZ, 9%nat)
        else if has "-0700" then Some ("", stdNumTZ, 5%nat)
        else if has "-07:00" then Some ("", stdNumColonTZ, 6%nat)
        else if has "-07" then Some ("", stdNumShortTZ, 3%nat) else None
      else if Ascii.eqb c "Z" then
        if has "Z070000" then Some ("", stdISO8601SecondsTZ, 7%nat)
        else if has "Z07:00:00" then Some ("", stdISO8601ColonSecondsTZ, 9%nat)
        else if has "Z0700" then Some ("", stdISO8601TZ, 5%nat)
        else if has "Z07:00" then Some ("", stdISO8601ColonTZ, 6%nat)
        else if has "Z07" then Some ("", stdISO8601ShortTZ, 3%nat) else None
      else if Ascii.eqb c "." || Ascii.eqb c "," then
        match rest with
        | String ch _ =>
            if Ascii.eqb ch "0" || Ascii.eqb ch "9"
            then let '(n, after) := run ch rest in
                 match after with
                 | String d _ =>
                     if isDigit d then None
                     else Some ("", if Ascii.eqb ch "0" then stdFracSecond0 n
                                    else stdFracSecond9 n, S n)
                 | EmptyString =>
                     Some ("", if Ascii.eqb ch "0" then stdFracSecond0 n
                               else stdFracSecond9 n, S n)
                 end
            else None
        | EmptyString => None
        end
      else None
  end.

(** The layout cut by repeated [nextStdChunk]: each element with the
    literal text before it, and the literal text after the last one.
    [skip] counts the bytes of the element found last that are still to be
    passed over, [prefix] is the literal text since. *)
Fixpoint chunksFrom (layout : string) (skip : nat) (prefix : string)
  : list (string * std) * string :=
  match layout with
  | EmptyString => ([], prefix)
  | String c rest =>
      match skip with
      | S k => chunksFrom rest k prefix
      | O =>
          match stdAt layout with
          | Some (lit, e, n) =>
              let '(cs, trailing) := chunksFrom rest (Nat.pred n) EmptyString in
              ((prefix ++ lit, e) :: cs, trailing)
          | None => chunksFrom rest O (prefix ++ String c EmptyString)
          end
      end
  end.

Definition chunks (layout : string) : list (string * std) * string :=
  chunksFrom layout O EmptyString.

Record fields := mkFields {
  f_year : Z; f_month : Z; f_day : Z; f_hour : Z; f_min : Z;
  pmSet : bool; amSet : bool }.

(** What [parse] reads for one element, for the elements of the decoder's
    layout; the others are not modelled and read as errors. *)
Definition parseStd (e : std) (value : string) (f : fields)
  : option (fields * string) :=
  match e with
  | stdMonth =>
      match lookup shortMonthNames value 0 with
      | Some (m, rest) =>
          Some (mkFields (f_year f) (m + 1) (f_day f) (f_hour f) (f_min f)
                         (pmSet f) (amSet f), rest)
      | None => None
      end
  | stdZeroDay =>
      match getnum value true with
      | Some (d, rest) =>
          Some (mkFields (f_year f) (f_month f) d (f_hour f) (f_min f)
                         (pmSet f) (amSet f), rest)
      | None => None
      end
  | stdLongYear =>
      match value with
      | String c0 (String c1 (String c2 (String c3 rest))) =>
          if isDigit c0 && isDigit c1 && isDigit c2 && isDigit c3
          then Some (mkFields (((digit_val c0 * 10 + digit_val c1) * 10
                                + digit_val c2) * 10 + digit_val c3)
                              (f_month f) (f_day f) (f_hour f) (f_min f)
                              (pmSet f) (amSet f), rest)
          else None
      | _ => None
      end
  | stdHour =>
      match getnum value false with
      | Some (h, rest) =>
          if (h <? 0) || (24 <=? h) then None
          else Some (mkFields (f_year f) (f_month f) (f_day f) h (f_min f)
                              (pmSet f) (amSet f), rest)
      | None => None
      end
  | stdZeroMinute =>
      match getnum value true with
      | Some (m, rest) =>
          if (m <? 0) || (60 <=? m) then None
          else Some (mkFields (f_year f) (f_month f) (f_day f) (f_hour f) m
                              (pmSet f) (amSet f), rest)
      | None => None
      end
  | stdPM =>
      match value with
      | String c0 (String c1 rest) =>
          if String.eqb (String c0 (String c1 "")) "PM"
          then Some (mkFields (f_year f) (f_month f) (f_day f) (f_hour f)
                              (f_min f) true (amSet f), rest)
          else if String.eqb (String c0 (String c1 "")) "AM"
          then Some (mkFields (f_year f) (f_month f) (f_day f) (f_hour f)
                              (f_min f) (pmSet f) true, rest)
          else None
      | _ => None
      end
  | _ => None
  end.

(** The loop of [parse] over the chunks of the layout; after the last
    element the rest of the layout is literal text, and no text may remain
    in the value. *)
Fixpoint parseChunks (chunks : list (string * std)) (trailing : string)
         (value : string) (f : fields) : option fields :=
  match chunks with
  | [] =>
      match skip value trailing with
      | Some EmptyString => Some f
      | _ => None
      end
  | (prefix, e) :: chunks' =>
      match skip value prefix with
      | Some value =>
          match parseStd e value f with
          | Some (f, value) => parseChunks chunks' trailing value f
          | None => None
          end
      | None => None
      end
  end.

(** [Parse(layout, value)], for a layout without zone: the result is in
    UTC.  A month or a day the layout does not ask for is the first. *)
Definition Parse (layout value : string) : Time * option error :=
  let '(cs, trailing) := chunks layout in
  match parseChunks cs trailing value (mkFields 0 (-1) (-1) 0 0 false false) with
  | None => (mkTime 0 UTC, Some (TimeParseError layout value))
  | Some f =>
      let hour :=
        if pmSet f && (f_hour f <? 12) then f_hour f + 12
        else if amSet f && (f_hour f =? 12) then 0
        else f_hour f in
      let month := if f_month f <? 0 then January else f_month f in
      let day := if f_day f <? 0 then 1 else f_day f in
      if (day <? 1) || (daysIn month (f_year f) <? day)
      then (mkTime 0 UTC, Some (TimeParseError layout value))
      else (Date (f_year f) month day hour (f_min f) 0 0 UTC, None)
  end.

End time.

(** ** package encoding/csv

    A [Reader] over a string, with the default settings the decoder keeps:
    comma as separator, no comment character, strict quotes, and
    [FieldsPerRecord = 0], which makes the first record fix the number of
    fields of all that follow. *)

Module csv.

Definition LF : ascii := ascii_of_nat 10.
Definition CR : ascii := ascii_of_nat 13.
Definition quote : ascii := ascii_of_nat 34.
Definition comma : ascii := ",".

Record Reader := mkReader { input : string; FieldsPerRecord : Z }.

Definition NewReader (s : string) : Reader := mkReader s 0.

(** [ReadSlice('\n')]: the bytes up to and including the first line feed,
    the bytes after it, and whether a line feed was found. *)
Fixpoint readSlice (s : string) : string * string * bool :=
  match s with
  | EmptyString => (EmptyString, EmptyString, false)
  | String c s' =>
      if Ascii.eqb c LF then (String c EmptyString, s', true)
      else let '(l, r, found) := readSlice s' in (String c l, r, found)
  end.

Fixpoint dropTrailingCR (line : string) : string :=
  match line with
  | EmptyString => EmptyString
  | String c EmptyString => if Ascii.eqb c CR then EmptyString else line
  | String c line' => String c (dropTrailingCR line')
  end.

Fixpoint normalizeCRLF (line : string) : string :=
  match line with
  | EmptyString => EmptyString
  | String c line' =>
      if Ascii.eqb c CR && String.eqb line' (String LF EmptyString)
      then line'
      else String c (normalizeCRLF line')
  end.

(** [lengthNL]: 1 when the line ends in a line feed. *)
Fixpoint lengthNL (b : string) : Z :=
  match b with
  | EmptyString => 0
  | String c EmptyString => if Ascii.eqb c LF then 1 else 0
  | String _ b' => lengthNL b'
  end.

Fixpoint dropNL (b : string) : string :=
  match b with
  | EmptyString => EmptyString
  | String c EmptyString => if Ascii.eqb c LF then EmptyString else b
  | String c b' => String c (dropNL b')
  end.

(** [readLine]: the next line with its line feed, [\r\n] turned into
    [\n]; at the end of the input a last line without line feed loses a
    trailing [\r], and after it the error is [io.EOF]. *)
Definition readLine (inp : string) : string * option error * string :=
  let '(line, rest, found) := readSlice inp in
  let '(line, err) :=
    if found then (line, None)
    else if 0 <? len line then (dropTrailingCR line, None)
    else (line, Some EOF) in
  (normalizeCRLF line, err, rest).

Inductive fieldState :=
| AtField                     (* at the start of a field *)
| InQuotes (buf : string).    (* inside a quoted field, [buf] read so far *)

(** The [parseField] loop of [readRecord]: the fields of the record, the
    error that stopped it, and the input left.  [None]: out of fuel. *)
Fixpoint parseFields (fuel : nat) (st : fieldState) (line rest : string)
         (dst : list string) : option (list string * option error * string) :=
  match fuel with
  | O => None
  | S fuel =>
      match st with
      | AtField =>
          match line with
          | String c line' =>
              if Ascii.eqb c quote
              then parseFields fuel (InQuotes EmptyString) line' rest dst
              else
                match strings.cut comma line with
                | Some (field, after) =>
                    if strings.contains quote field
                    then Some (dst, Some (CsvParseError ErrBareQuote), rest)
                    else parseFields fuel AtField after rest (dst ++ [field])%list
                | None =>
                    if strings.contains quote (dropNL line)
                    then Some (dst, Some (CsvParseError ErrBareQuote), rest)
                    else Some ((dst ++ [dropNL line])%list, None, rest)
                end
          | EmptyString => Some ((dst ++ [EmptyString])%list, None, rest)
          end
      | InQuotes buf =>
          match strings.cut quote line with
          | Some (before, after) =>
              match after with
              | String c after' =>
                  if Ascii.eqb c quote
                  then parseFields fuel (InQuotes (buf ++ before ++ String quote ""))
                                   after' rest dst
                  else if Ascii.eqb c comma
                  then parseFields fuel AtField after' rest (dst ++ [(buf ++ before)%string])%list
                  else if lengthNL after =? len after
                  then Some ((dst ++ [(buf ++ before)%string])%list, None, rest)
                  else Some (dst, Some (CsvParseError ErrQuote), rest)
              | EmptyString => Some ((dst ++ [(buf ++ before)%string])%list, None, rest)
              end
          | None =>
              if 0 <? len line
              then let '(line', _, rest') := readLine rest in
                   parseFields fuel (InQuotes (buf ++ line)) line' rest' dst
              else Some (dst, Some (CsvParseError ErrQuote), rest)
          end
      end
  end.

(** The first loop of [readRecord]: the next line that is not empty, or
    [io.EOF]. *)
Fixpoint nextLine (fuel : nat) (inp : string)
  : option (string * option error * string) :=
  match fuel with
  | O => None
  | S fuel =>
      let '(line, errRead, rest) := readLine inp in
      match errRead with
      | None =>
          if len line =? lengthNL line then nextLine fuel rest
          else Some (line, errRead, rest)
      | Some _ => Some (line, errRead, rest)
      end
  end.

Definition readRecord (fuel : nat) (r : Reader)
  : option (list string * option error * Reader) :=
  match nextLine fuel (input r) with
  | None => None
  | Some (_, Some e, rest) => Some ([], Some e, mkReader rest (FieldsPerRecord r))
  | Some (line, None, rest) =>
      match parseFields fuel AtField line rest [] with
      | None => None
      | Some (dst, err, rest) =>
          if 0 <? FieldsPerRecord r
          then
            let err :=
              match err with
              | None =>
                  if negb (Z.of_nat (length dst) =? FieldsPerRecord r)
                  then Some (CsvParseError ErrFieldCount) else None
              | Some _ => err
              end in
            Some (dst, err, mkReader rest (FieldsPerRecord r))
          else if FieldsPerRecord r =? 0
          then Some (dst, err, mkReader rest (Z.of_nat (length dst)))
          else Some (dst, err, mkReader rest (FieldsPerRecord r))
      end
  end.

(** [r.Read()]. *)
Definition Read (r : Reader) : Outcome (list string * option error * Reader) :=
  match readRecord (S (String.length (input r))) r with
  | Some x => Ok x
  | None => Diverges
  end.

End csv.

(** ** compasscard.go: the usage record decoder *)

Record UsageRecord := mkUsageRecord {
  DateTime : time.Time;
  Transaction : string;
  Product : string;
  LineItem : string;
  Amount : strconv.float64;
  BalanceDetails : strconv.float64;
  OrderDate : string;
  Payment : string;
  OrderNumber : string;
  AuthCode : string;
  Total : string }.

Definition usageRecordLayout : string := "Jan-02-2006 15:04 PM".

Definition parseAmount (amount : string) : strconv.float64 * option error :=
  let val := strings.Replace amount "$" "" (-1) in
  if String.eqb val "" then (S754_zero false, None)
  else strconv.ParseFloat val.

(** [line[i]]: a panic when [i] is not below the length. *)
Definition index (line : list string) (i : nat) : Outcome string :=
  match nth_error line i with
  | Some field => Ok field
  | None => Panics (IndexOutOfRange (Z.of_nat i) (Z.of_nat (length line)))
  end.

(** The result is a pointer, [None] for [nil].  (What the function prints
    on a bad amount is left out.) *)
Definition parseUsageRecord (line : list string)
  : Outcome (option UsageRecord * option error) :=
  line0 ← index line 0;
  let '(t, err) := time.Parse usageRecordLayout line0 in
  match err with
  | Some e => mret (None, Some e)
  | None =>
      line4 ← index line 4;
      let '(amount, err) := parseAmount line4 in
      match err with
      | Some e => mret (None, Some e)
      | None =>
          line5 ← index line 5;
          let '(balance, err) := parseAmount line5 in
          match err with
          | Some e => mret (None, Some e)
          | None =>
              line1 ← index line 1;
              line2 ← index line 2;
              line3 ← index line 3;
              line6 ← index line 6;
              line7 ← index line 7;
              line8 ← index line 8;
              line9 ← index line 9;
              line10 ← index line 10;
              mret (Some (mkUsageRecord t line1 line2 line3 amount balance
                                        line6 line7 line8 line9 line10), None)
          end
      end
  end.

(** The loop of [Parse]; [fuel] bounds the number of records read. *)
Fixpoint parseLoop (fuel : nat) (r : csv.Reader) (header : bool)
         (lines : list UsageRecord) : Outcome (list UsageRecord * option error) :=
  match fuel with
  | O => Diverges
  | S fuel =>
      '(line, err, r) ← csv.Read r;
      match err with
      | Some EOF => mret (lines, None)
      | Some e => mret ([], Some e)
      | None =>
          if header then parseLoop fuel r (negb header) lines
          else
            '(record, err) ← parseUsageRecord line;
            match err with
            | Some e => mret ([], Some e)
            | None =>
                match record with
                | Some record => parseLoop fuel r header (lines ++ [record])%list
                | None => Panics NilDereference
                end
            end
      end
  end.

(** [Parse] converts a compass card csv response into UsageRecords. *)
Definition Parse (raw : string) : Outcome (list UsageRecord * option error) :=
  parseLoop (S (String.length raw)) (csv.NewReader raw) true [].


(** ** cmd/server/main.go: the month cache

    The world the server runs in: the map [s.cache] points to, the files
    under the cache directory that can be read, and the trace of what the
    server did to its cache, to the file system and to the portal. *)

Inductive event :=
| EvCacheGet (key : string)                      (* s.cache[key] read *)
| EvCachePut (key : string)                      (* s.cache[key] = records *)
| EvReadFile (path : string)                     (* ioutil.ReadFile *)
| EvWriteFile (path : string) (data : string)    (* ioutil.WriteFile *)
| EvLookup (date : time.Time) (ccsn : string)    (* s.lookup entered *)
| EvNew (username password : string)             (* compasscard.New *)
| EvUsage (ccsn : string) (startDate endDate : time.Time).  (* sess.Usage *)

Record World := mkWorld {
  cache : gmap string (list UsageRecord);
  files : gmap string string;
  trace : list event }.

(** What the server does not decide, each a function of the history so far:
    the clock, whether signing in works, the body the usage export answers
    with, and whether a file can be written ([Some (e, left)]: the write
    fails with [e]; [partial] is what the file then holds, if it was
    touched). *)
Record Environment := mkEnvironment {
  Now : list event -> time.Time;
  signIn : list event -> string -> string -> option error;
  usageExport : list event -> string -> time.Time -> time.Time -> string * option error;
  writeFault : list event -> string -> string -> option (error * option string) }.

Record server := mkServer {
  username : string;
  password : string;
  tmpdir : string }.

(** A computation in the world: the world it leaves, also when it panics. *)
Definition Go (A : Type) : Type := World -> World * Outcome A.

#[global] Instance Go_ret : MRet Go := fun _ a w => (w, Ok a).

#[global] Instance Go_bind : MBind Go := fun _ _ k m w =>
  match m w with
  | (w', Ok a) => k a w'
  | (w', Panics p) => (w', Panics p)
  | (w', Diverges) => (w', Diverges)
  end.

Definition emit (e : event) : Go unit := fun w =>
  (mkWorld (cache w) (files w) (trace w ++ [e])%list, Ok tt).

Definition pure {A} (o : Outcome A) : Go A := fun w => (w, o).

Definition history : Go (list event) := fun w => (w, Ok (trace w)).

Definition cacheGet (key : string) : Go (option (list UsageRecord)) := fun w =>
  (mkWorld (cache w) (files w) (trace w ++ [EvCacheGet key])%list,
   Ok (cache w !! key)).

Definition cachePut (key : string) (records : list UsageRecord) : Go unit := fun w =>
  (mkWorld (<[key := records]> (cache w)) (files w)
           (trace w ++ [EvCachePut key])%list, Ok tt).

Definition ReadFile (filename : string) : Go (string * option error) := fun w =>
  (mkWorld (cache w) (files w) (trace w ++ [EvReadFile filename])%list,
   Ok match files w !! filename with
      | Some bs => (bs, None)
      | None => ("", Some (PathError "open" filename))
      end).

Definition WriteFile (env : Environment) (filename data : string)
  : Go (option error) := fun w =>
  let tr := (trace w ++ [EvWriteFile filename data])%list in
  match writeFault env (trace w) filename data with
  | None => (mkWorld (cache w) (<[filename := data]> (files w)) tr, Ok None)
  | Some (e, Some partial) =>
      (mkWorld (cache w) (<[filename := partial]> (files w)) tr, Ok (Some e))
  | Some (e, None) => (mkWorld (cache w) (files w) tr, Ok (Some e))
  end.

(** [compasscard.New]: the sign-in page is fetched and the form posted;
    the session itself carries nothing the cache looks at. *)
Definition New (env : Environment) (username password : string)
  : Go (option error) :=
  tr ← history;
  _ ← emit (EvNew username password);
  mret (signIn env tr username password).

(** [sess.Usage]: the export is fetched and decoded; records and raw bytes
    are returned together, or neither. *)
Definition Usage (env : Environment) (ccsn : string)
           (StartDate EndDate : time.Time)
  : Go (list UsageRecord * string * option error) :=
  tr ← history;
  _ ← emit (EvUsage ccsn StartDate EndDate);
  let '(bs, err) := usageExport env tr ccsn StartDate EndDate in
  match err with
  | Some e => mret ([], "", Some e)
  | None =>
      '(lines, err) ← pure (Parse bs);
      match err with
      | Some e => mret ([], "", Some e)
      | None => mret (lines, bs, None)
      end
  end.

Definition isCurrentMonth (now date : time.Time) : bool :=
  let beginningOfMonth := time.AddDate now 0 0 (- time.Day now - 1) in
  let endOfMonth := time.AddDate beginningOfMonth 0 1 (-1) in
  time.After date beginningOfMonth && time.Before date endOfMonth.

Definition lookup (env : Environment) (s : server) (date : time.Time)
           (ccsn : string) : Go (list UsageRecord * string * option error) :=
  _ ← emit (EvLookup date ccsn);
  err ← New env (username s) (password s);
  match err with
  | Some e => mret ([], "", Some e)
  | None =>
      let startDate :=
        time.Date (time.Year date) (time.Month date) 1 0 0 0 0 time.UTC in
      let endDate := time.AddDate startDate 0 1 (-1) in
      Usage env ccsn startDate endDate
  end.

Definition cacheFileName (s : server) (ccsn key : string) : string :=
  tmpdir s ++ "/" ++ ccsn ++ "-" ++ key ++ ".csv".

Definition lookupAndCache (env : Environment) (s : server) (date : time.Time)
           (ccsn : string) : Go (list UsageRecord * option error) :=
  let key := time.FormatYearMonth date in
  cached ← cacheGet key;
  match cached with
  | Some records => mret (records, None)
  | None =>
      let cacheFile := cacheFileName s ccsn key in
      '(bs, err) ← ReadFile cacheFile;
      match err with
      | None =>
          '(records, err) ← pure (Parse bs);
          match err with
          | Some e => mret ([], Some e)
          | None =>
              _ ← cachePut key records;
              mret (records, None)
          end
      | Some _ =>
          '(records, raw, err) ← lookup env s date ccsn;
          match err with
          | Some e => mret ([], Some e)
          | None =>
              _ ← cachePut key records;
              err ← WriteFile env cacheFile raw;
              mret (records, err)
          end
      end
  end.

(** A request [GET /ccsn?year=..&month=..], after [http.StripPrefix], and
    what the handler answers. *)
Record request := mkRequest {
  path : string;
  queryYear : string;
  queryMonth : string }.

Record response := mkResponse {
  Lines : list UsageRecord;
  CCSN : string }.

Inductive reply :=
| BadRequest (e : error)             (* 400, the error's text *)
| BadRequestText (body : string)     (* 400, a fixed text *)
| Encoded (resp : response).         (* the response, as JSON *)

Definition handle (ccsn : string) (records : list UsageRecord) : reply :=
  Encoded (mkResponse records ccsn).

Definition ServeHTTP (env : Environment) (s : server) (req : request)
  : Go reply :=
  let ccsn := path req in
  let '(year, err) := strconv.Atoi (queryYear req) in
  match err with
  | Some e => mret (BadRequest e)
  | None =>
      let '(month, err) := strconv.Atoi (queryMonth req) in
      match err with
      | Some e => mret (BadRequest e)
      | None =>
          if (month <? 1) || (12 <? month)
          then mret (BadRequestText "month out of range [1, 12]")
          else
            let date := time.Date year month 1 0 0 0 0 time.UTC in
            tr ← history;
            if isCurrentMonth (Now env tr) date
            then
              '(records, _, err) ← lookup env s date ccsn;
              match err with
              | Some e => mret (BadRequest e)
              | None => mret (handle ccsn records)
              end
            else
              '(records, err) ← lookupAndCache env s date ccsn;
              match err with
              | Some e => mret (BadRequest e)
              | None => mret (handle ccsn records)
              end
      end
  end.


(** ** The earlier variant of the decoder

    The second copy of the package differs in the record: the balance is
    kept as the string of the field, and the amount goes to [ParseFloat]
    directly, with no special case for the empty field. *)

Module variant.

Record UsageRecord := mkUsageRecord {
  DateTime : time.Time;
  Transaction : string;
  Product : string;
  LineItem : string;
  Amount : strconv.float64;
  BalanceDetails : string;
  OrderDate : string;
  Payment : string;
  OrderNumber : string;
  AuthCode : string;
  Total : string }.

Definition parseUsageRecord (line : list string)
  : Outcome (option UsageRecord * option error) :=
  line0 ← index line 0;
  let '(t, err) := time.Parse usageRecordLayout line0 in
  match err with
  | Some e => mret (None, Some e)
  | None =>
      line4 ← index line 4;
      let '(val, err) := strconv.ParseFloat (strings.Replace line4 "$" "" (-1)) in
      match err with
      | Some e => mret (None, Some e)
      | None =>
          line1 ← index line 1;
          line2 ← index line 2;
          line3 ← index line 3;
          line5 ← index line 5;
          line6 ← index line 6;
          line7 ← index line 7;
          line8 ← index line 8;
          line9 ← index line 9;
          line10 ← index line 10;
          mret (Some (mkUsageRecord t line1 line2 line3 val line5
                                    line6 line7 line8 line9 line10), None)
      end
  end.

End variant.


(** ** Vocabulary of the statements *)

(** [Reads r rows r']: successive calls of [Read], starting from the reader
    [r], return the records [rows], each without error, and leave the
    reader [r']. *)
Inductive Reads : csv.Reader -> list (list string) -> csv.Reader -> Prop :=
| Reads_nil r : Reads r [] r
| Reads_cons r row r1 rows r' :
    csv.Read r = Ok (row, None, r1) ->
    Reads r1 rows r' ->
    Reads r (row :: rows) r'.

(** A data row is malformed, with error [e], when its timestamp does not
    parse under the layout, or its amount is not a number, or its balance
    is not. *)
Definition malformed (row : list string) (e : error) : Prop :=
  exists ts, nth_error row 0 = Some ts /\
    (snd (time.Parse usageRecordLayout ts) = Some e \/
     snd (time.Parse usageRecordLayout ts) = None /\
     exists amount, nth_error row 4 = Some amount /\
       (snd (parseAmount amount) = Some e \/
        snd (parseAmount amount) = None /\
        exists balance, nth_error row 5 = Some balance /\
          snd (parseAmount balance) = Some e)).

(** A data row is well-formed when [parseUsageRecord] makes a record of
    it. *)
Definition wellformed (row : list string) (record : UsageRecord) : Prop :=
  parseUsageRecord row = Ok (Some record, None).


(** The payload whose lines are [rows], each ended by a line feed. *)
Fixpoint unlines (rows : list string) : string :=
  match rows with
  | [] => EmptyString
  | row :: rows' => row ++ String csv.LF (unlines rows')
  end.


(** The first day of the month of [date], from which [lookup] asks the
    portal for one month of usage. *)
Definition lookupStart (date : time.Time) : time.Time :=
  time.Date (time.Year date) (time.Month date) 1 0 0 0 0 time.UTC.

(** Counting in a trace: calls of the fetcher [lookup], accesses to the
    in-memory cache, reads and writes of cache files. *)
Definition isFetch (e : event) : bool :=
  match e with EvLookup _ _ => true | _ => false end.

Definition isCacheAccess (e : event) : bool :=
  match e with EvCacheGet _ | EvCachePut _ => true | _ => false end.

Definition isFileRead (e : event) : bool :=
  match e with EvReadFile _ => true | _ => false end.

Definition isFileWrite (e : event) : bool :=
  match e with EvWriteFile _ _ => true | _ => false end.

Fixpoint count (p : event -> bool) (tr : list event) : nat :=
  match tr with
  | [] => O
  | e :: tr' => ((if p e then 1 else 0) + count p tr')%nat
  end.


(** The events of one call of the fetcher after the history [tr]: the call,
    the sign-in and, when that works, the usage export. *)
Definition fetchEvents (env : Environment) (s : server) (date : time.Time)
           (ccsn : string) (tr : list event) : list event :=
  EvLookup date ccsn :: EvNew (username s) (password s) ::
  match signIn env (tr ++ [EvLookup date ccsn])%list (username s) (password s) with
  | Some _ => []
  | None => [EvUsage ccsn (lookupStart date)
                     (time.AddDate (lookupStart date) 0 1 (-1))]
  end.


(** The bounds [isCurrentMonth] computes from the clock. *)
Definition beginningOfMonth (now : time.Time) : time.Time :=
  time.AddDate now 0 0 (- time.Day now - 1).

Definition endOfMonth (now : time.Time) : time.Time :=
  time.AddDate (beginningOfMonth now) 0 1 (-1).



(** ** A scenario

    One card, the month of January 2024 with a single purchase, asked for
    on the 15th of March 2024 at 10:00 UTC; a portal that answers, and a
    cache directory that can or cannot be written. *)

Definition exampleHeader : string :=
  "DateTime,Transaction,Product,LineItem,Amount,BalanceDetails,OrderDate,Payment,OrderNumber,AuthCode,Total".

Definition examplePayload : string :=
  unlines [ exampleHeader;
            "Jan-05-2024 09:00 AM,Purchase,Monthly Pass,Adult,$91.00,$0.00,,,,," ].

Definition exampleRecord : UsageRecord :=
  mkUsageRecord (time.Date 2024 1 5 9 0 0 0 time.UTC)
                "Purchase" "Monthly Pass" "Adult"
                (strconv.dyadic 91 0) (S754_zero false) "" "" "" "" "".

Definition exampleServer : server := mkServer "rider" "secret" "/tmp".

Definition january2024 : time.Time := time.Date 2024 1 1 0 0 0 0 time.UTC.

Definition march15 : time.Time := time.Date 2024 3 15 10 0 0 0 time.UTC.

Definition emptyWorld : World := mkWorld ∅ ∅ [].

Definition portalUp : Environment :=
  mkEnvironment (fun _ => march15)
                (fun _ _ _ => None)
                (fun _ _ _ _ => (examplePayload, None))
                (fun _ _ _ => None).

Definition diskFull : Environment :=
  mkEnvironment (fun _ => march15)
                (fun _ _ _ => None)
                (fun _ _ _ _ => (examplePayload, None))
                (fun _ filename _ => Some (PathError "write" filename, None)).



(** * Properties *)

(** ** The csv reader consumes its input: every call of [Read] returns. *)

Lemma length_cut c s before after :
  strings.cut c s = Some (before, after) ->
  (String.length before + String.length after + 1 = String.length s)%nat.
Proof.
  revert before after.
  induction s as [|d s IH]; intros before after; simpl; [discriminate|].
  destruct (Ascii.eqb d c).
  - intros [= <- <-]. simpl. lia.
  - destruct (strings.cut c s) as [[b a]|]; [|discriminate].
    intros [= <- <-]. specialize (IH b a eq_refl). simpl. lia.
Qed.

Lemma length_readSlice s line rest found :
  csv.readSlice s = (line, rest, found) ->
  (String.length line + String.length rest = String.length s)%nat /\
  (s <> EmptyString -> 0 < String.length line)%nat.
Proof.
  revert line rest found.
  induction s as [|c s IH]; intros line rest found; simpl.
  - intros [= <- <- <-]. split; [reflexivity | congruence].
  - destruct (Ascii.eqb c csv.LF).
    + intros [= <- <- <-]. simpl. split; lia.
    + destruct (csv.readSlice s) as [[l r] f].
      intros [= <- <- <-]. destruct (IH l r f eq_refl) as [IH1 _].
      simpl. split; lia.
Qed.

Lemma length_dropTrailingCR line :
  (String.length (csv.dropTrailingCR line) <= String.length line)%nat.
Proof.
  induction line as [|c line IH]; simpl; [lia|].
  destruct line as [|d line].
  - destruct (Ascii.eqb c csv.CR); simpl; lia.
  - simpl in *. lia.
Qed.

Lemma length_normalizeCRLF line :
  (String.length (csv.normalizeCRLF line) <= String.length line)%nat.
Proof.
  induction line as [|c line IH]; simpl; [lia|].
  destruct (Ascii.eqb c csv.CR && String.eqb line (String csv.LF EmptyString));
    simpl; lia.
Qed.

Lemma readLine_shrinks inp line err rest :
  csv.readLine inp = (line, err, rest) ->
  (String.length line + String.length rest <= String.length inp)%nat /\
  (err = None \/ err = Some EOF) /\
  (err = None -> String.length rest < String.length inp)%nat.
Proof.
  unfold csv.readLine.
  destruct (csv.readSlice inp) as [[l r] found] eqn:Hs.
  destruct (length_readSlice _ _ _ _ Hs) as [Hlen Hpos].
  pose proof (length_normalizeCRLF l) as Hn.
  pose proof (length_normalizeCRLF (csv.dropTrailingCR l)) as Hn'.
  pose proof (length_dropTrailingCR l) as Hd.
  destruct found.
  - intros [= <- <- <-]. split; [lia|]. split; [by left|]. intros _.
    destruct inp; [simpl in Hs; discriminate|].
    specialize (Hpos ltac:(discriminate)). lia.
  - unfold len. destruct (0 <? Z.of_nat (String.length l)) eqn:Hl.
    + intros [= <- <- <-]. split; [lia|]. split; [by left|]. intros _. lia.
    + intros [= <- <- <-]. split; [lia|]. split; [by right|]. discriminate.
Qed.

Lemma parseFields_returns fuel : forall st line rest dst,
  (String.length line + String.length rest < fuel)%nat ->
  exists dst' err rest',
    csv.parseFields fuel st line rest dst = Some (dst', err, rest') /\
    (String.length rest' <= String.length rest)%nat.
Proof.
  induction fuel as [|fuel IH]; intros st line rest dst Hfuel; [lia|].
  simpl. destruct st as [|buf].
  - destruct line as [|c line'].
    + eauto 6.
    + destruct (Ascii.eqb c csv.quote).
      * apply IH. simpl in Hfuel. lia.
      * destruct (strings.cut csv.comma (String c line')) as [[field after]|] eqn:Hcut.
        -- destruct (strings.contains csv.quote field); [eauto 6|].
           apply IH. apply length_cut in Hcut. lia.
        -- destruct (strings.contains csv.quote (csv.dropNL (String c line')));
             eauto 6.
  - destruct (strings.cut csv.quote line) as [[before after]|] eqn:Hcut.
    + apply length_cut in Hcut.
      destruct after as [|c after']; [eauto 6|].
      simpl in Hcut.
      destruct (Ascii.eqb c csv.quote); [apply IH; lia|].
      destruct (Ascii.eqb c csv.comma); [apply IH; lia|].
      destruct (csv.lengthNL (String c after') =? len (String c after')); eauto 6.
    + unfold len. destruct (0 <? Z.of_nat (String.length line)) eqn:Hl; [|eauto 6].
      destruct (csv.readLine rest) as [[line' e] rest'] eqn:Hr.
      destruct (readLine_shrinks _ _ _ _ Hr) as (Hlen & _ & _).
      destruct (IH (csv.InQuotes (buf ++ line)) line' rest' dst) as (d & e' & r & -> & Hle);
        [lia|].
      exists d, e', r. split; [reflexivity | lia].
Qed.

Lemma nextLine_returns fuel : forall inp,
  (String.length inp < fuel)%nat ->
  exists line err rest,
    csv.nextLine fuel inp = Some (line, err, rest) /\
    (err = Some EOF \/
     err = None /\
     (String.length line + String.length rest <= String.length inp)%nat /\
     (String.length rest < String.length inp)%nat).
Proof.
  induction fuel as [|fuel IH]; intros inp Hfuel; [lia|].
  simpl. destruct (csv.readLine inp) as [[line err] rest] eqn:Hr.
  destruct (readLine_shrinks _ _ _ _ Hr) as (Hlen & [-> | ->] & Hlt).
  - specialize (Hlt eq_refl).
    destruct (len line =? csv.lengthNL line).
    + destruct (IH rest) as (l & e & r & -> & Hres); [lia|].
      exists l, e, r. split; [reflexivity|].
      destruct Hres as [-> | (-> & H1 & H2)]; [by left | right; repeat split; lia].
    + exists line, None, rest. split; [reflexivity | right; repeat split; lia].
  - exists line, (Some EOF), rest. split; [reflexivity | by left].
Qed.

(** [Read] returns: at the end of the input with [io.EOF], before it with
    a record (or a csv error) and strictly less input left. *)
Lemma Read_returns r :
  exists dst err r',
    csv.Read r = Ok (dst, err, r') /\
    (err = Some EOF \/
     (String.length (csv.input r') < String.length (csv.input r))%nat).
Proof.
  unfold csv.Read, csv.readRecord.
  destruct (nextLine_returns (S (String.length (csv.input r))) (csv.input r))
    as (line & err & rest & -> & Hres); [lia|].
  destruct Hres as [-> | (-> & H1 & H2)]; [eauto 7|].
  destruct (parseFields_returns (S (String.length (csv.input r)))
              csv.AtField line rest []) as (dst & err & rest' & -> & Hle); [lia|].
  destruct (0 <? csv.FieldsPerRecord r); [|destruct (csv.FieldsPerRecord r =? 0)];
    eexists _, _, _; (split; [reflexivity|]); right; simpl; lia.
Qed.

(** ** The decoder *)

Lemma index_nth_error line i :
  index line i = match nth_error line i with
                 | Some field => Ok field
                 | None => Panics (IndexOutOfRange (Z.of_nat i) (Z.of_nat (length line)))
                 end.
Proof. reflexivity. Qed.

Lemma index_Ok line i field :
  index line i = Ok field <-> nth_error line i = Some field.
Proof.
  rewrite index_nth_error. destruct (nth_error line i); split; congruence.
Qed.

Ltac run_outcome := cbn [mbind mret Outcome_bind Outcome_ret fst snd].

Ltac index_cases row i :=
  let H := fresh "Hidx" in
  destruct (index row i) as [?field|?p|] eqn:H; run_outcome;
  [ try (apply index_Ok in H) | .. ].

Lemma malformed_parseUsageRecord row e :
  malformed row e <-> parseUsageRecord row = Ok (None, Some e).
Proof.
  unfold malformed, parseUsageRecord. split.
  - intros (ts & Hts & H). apply index_Ok in Hts. rewrite Hts. run_outcome.
    destruct (time.Parse usageRecordLayout ts) as [t err].
    run_outcome; cbn [snd] in H.
    destruct H as [-> | (-> & amount & Ha & H)]; [reflexivity|].
    apply index_Ok in Ha. rewrite Ha. run_outcome.
    destruct (parseAmount amount) as [a err]. cbn [snd] in H.
    destruct H as [-> | (-> & balance & Hb & H)]; [reflexivity|].
    apply index_Ok in Hb. rewrite Hb. run_outcome.
    destruct (parseAmount balance) as [b err]. cbn [snd] in H.
    by rewrite H.
  - index_cases row 0%nat; [|discriminate..].
    intros H. exists field. split; [assumption|]. revert H.
    destruct (time.Parse usageRecordLayout field) as [t [e0|]];
      run_outcome; [intros [= ->]; by left | right; split; [reflexivity|]].
    revert H. index_cases row 4%nat; [|discriminate..]. intros H.
    exists field0. split; [assumption|]. revert H.
    destruct (parseAmount field0) as [a [e0|]];
      run_outcome; [intros [= ->]; by left | right; split; [reflexivity|]].
    revert H. index_cases row 5%nat; [|discriminate..]. intros H.
    exists field1. split; [assumption|]. revert H.
    destruct (parseAmount field1) as [b [e0|]]; run_outcome; [by intros [= ->]|].
    repeat match goal with
           | |- context [index row ?i] =>
               destruct (index row i); run_outcome; [|discriminate..]
           end.
    discriminate.
Qed.

(** [parseUsageRecord] returns or panics at once. *)
Lemma parseUsageRecord_terminates row : parseUsageRecord row <> Diverges.
Proof.
  assert (Hidx : forall i, index row i <> Diverges).
  { intros i. rewrite index_nth_error. by destruct (nth_error row i). }
  unfold parseUsageRecord.
  destruct (index row 0) eqn:H0; run_outcome; [|discriminate|by apply Hidx in H0].
  destruct (time.Parse _ _) as [t [e|]]; [discriminate|].
  destruct (index row 4) eqn:H4; run_outcome; [|discriminate|by apply Hidx in H4].
  destruct (parseAmount _) as [amt [e|]]; [discriminate|].
  destruct (index row 5) eqn:H5; run_outcome; [|discriminate|by apply Hidx in H5].
  destruct (parseAmount _) as [b [e|]]; [discriminate|].
  repeat match goal with
         | |- context [index row ?i] =>
             let H := fresh in
             destruct (index row i) eqn:H; run_outcome;
             [|discriminate|by apply Hidx in H]
         end.
  discriminate.
Qed.

(** The loop of [Parse] never runs out of its bound. *)
Lemma parseLoop_terminates fuel : forall r header lines,
  (String.length (csv.input r) < fuel)%nat ->
  parseLoop fuel r header lines <> Diverges.
Proof.
  induction fuel as [|fuel IH]; intros r header lines Hfuel; [lia|].
  simpl. destruct (Read_returns r) as (dst & err & r' & -> & Hres). simpl.
  destruct err as [e|].
  - destruct e; discriminate.
  - destruct Hres as [|Hlt]; [discriminate|].
    destruct header; [apply IH; lia|].
    pose proof (parseUsageRecord_terminates dst) as Hrec.
    destruct (parseUsageRecord dst) as [[record err]| |]; simpl;
      [|discriminate|congruence].
    destruct err; [discriminate|].
    destruct record; [apply IH; lia | discriminate].
Qed.

Lemma Parse_terminates raw : Parse raw <> Diverges.
Proof. apply parseLoop_terminates. simpl. lia. Qed.

(** No partial results: an error comes with no records. *)
Lemma parseLoop_error_no_records fuel : forall r header lines lines' e,
  parseLoop fuel r header lines = Ok (lines', Some e) -> lines' = [].
Proof.
  induction fuel as [|fuel IH]; intros r header lines lines' e; [discriminate|].
  simpl. destruct (csv.Read r) as [[[dst err] r']| |]; simpl; [|discriminate..].
  destruct err as [e0|].
  - destruct e0; intros [= <- <-] || intros [= <-]; reflexivity || discriminate.
  - destruct header; [apply IH|].
    destruct (parseUsageRecord dst) as [[record err]| |]; simpl; [|discriminate..].
    destruct err; [by intros [= <- <-]|].
    destruct record; [apply IH | discriminate].
Qed.

Lemma Parse_error_no_records raw lines e :
  Parse raw = Ok (lines, Some e) -> lines = [].
Proof. apply parseLoop_error_no_records. Qed.

(** The loop over rows that are read and decoded without error. *)
Lemma parseLoop_wellformed r rows r' :
  Reads r rows r' ->
  forall fuel lines records,
    Forall2 wellformed rows records ->
    (String.length (csv.input r) < fuel)%nat ->
    exists fuel',
      (String.length (csv.input r') < fuel')%nat /\
      parseLoop fuel r false lines =
      parseLoop fuel' r' false (lines ++ records)%list.
Proof.
  induction 1 as [r | r row r1 rows r' Hread Hreads IH];
    intros fuel lines records Hall Hfuel.
  - inversion Hall; subst. exists fuel. by rewrite app_nil_r.
  - inversion Hall as [|? record ? records' Hrow Hrows]; subst.
    destruct fuel as [|fuel]; [lia|].
    destruct (Read_returns r) as (dst & err & r2 & Hr & Hres).
    rewrite Hread in Hr. injection Hr as <- <- <-.
    destruct Hres as [|Hlt]; [discriminate|].
    destruct (IH fuel (lines ++ [record])%list records' Hrows) as (fuel' & Hf & Heq);
      [lia|].
    exists fuel'. split; [exact Hf|].
    simpl. rewrite Hread. simpl. unfold wellformed in Hrow. rewrite Hrow. simpl.
    rewrite Heq. by rewrite <- app_assoc.
Qed.

Lemma Reads_app r rows1 : forall rows2 r',
  Reads r (rows1 ++ rows2)%list r' ->
  exists r1, Reads r rows1 r1 /\ Reads r1 rows2 r'.
Proof.
  revert r. induction rows1 as [|row rows1 IH]; intros r rows2 r' H.
  - exists r. split; [constructor | exact H].
  - inversion H as [|? ? r1 ? ? Hread Hrest]; subst.
    destruct (IH _ _ _ Hrest) as (r2 & H1 & H2).
    exists r2. split; [econstructor; eassumption | exact H2].
Qed.

(** C7. Decoding is all-or-nothing: when the data row [bad] is the first
    malformed row of the payload (its timestamp or an amount does not
    parse), after the header and the well-formed rows [pre], [Parse]
    returns the error of that row and no records: the records of [pre] are
    not returned, and nothing after [bad] is decoded. *)
Theorem Parse_all_or_nothing raw header pre records bad e r' :
  Reads (csv.NewReader raw) (header :: pre ++ [bad]) r' ->
  Forall2 wellformed pre records ->
  malformed bad e ->
  Parse raw = Ok ([], Some e).
Proof.
  intros Hreads Hpre Hbad.
  inversion Hreads as [|? ? r0 ? ? Hhdr Hrows]; subst.
  destruct (Reads_app _ _ _ _ Hrows) as (r1 & Hr1 & Hr2).
  inversion Hr2 as [|? ? r2 ? ? Hread _]; subst.
  destruct (Read_returns (csv.NewReader raw)) as (dst & err & r3 & Hr & Hres).
  rewrite Hhdr in Hr. injection Hr as <- <- <-.
  destruct Hres as [|Hlt]; [discriminate|].
  unfold Parse. simpl parseLoop. rewrite Hhdr. run_outcome. cbn [negb].
  destruct (parseLoop_wellformed _ _ _ Hr1 (String.length raw) [] records Hpre)
    as (fuel & Hfuel & ->); [exact Hlt|].
  destruct fuel as [|fuel]; [lia|].
  simpl parseLoop. rewrite Hread. run_outcome.
  apply malformed_parseUsageRecord in Hbad. rewrite Hbad. reflexivity.
Qed.

Lemma Parse_all_or_nothing_witness :
  Parse (unlines
    [ "DateTime,Transaction,Product,LineItem,Amount,BalanceDetails,OrderDate,Payment,OrderNumber,AuthCode,Total";
      "Jan-05-2024 09:00 AM,Purchase,Monthly Pass,Adult,$91.00,$0.00,,,,,";
      "Jan-06-2024 25:00 AM,Purchase,Monthly Pass,Adult,$91.00,$0.00,,,,,";
      "Jan-07-2024 09:00 AM,Purchase,Monthly Pass,Adult,$91.00,$0.00,,,,," ])
  = Ok ([], Some (TimeParseError usageRecordLayout "Jan-06-2024 25:00 AM")).
Proof.
  eapply (Parse_all_or_nothing _ _ [_] [_] _ _ _).
  - do 3 (eapply Reads_cons; [vm_compute; reflexivity|]). apply Reads_nil.
  - constructor; [vm_compute; reflexivity | constructor].
  - eexists. split; [reflexivity|]. left. vm_compute. reflexivity.
Defined.

(** C2.  A data row with fewer than eleven fields should make [Parse]
    return an error; it can make it panic instead.  A payload whose header
    and data row both have a single field passes the reader; the row's
    timestamp parses, and [line[4]] is then out of range: [Parse] neither
    returns an error nor records. *)
Theorem Parse_short_row_panics :
  Parse (unlines ["DateTime"; "Jan-30-2018 06:08 PM"])
  = Panics (IndexOutOfRange 4 1).
Proof. vm_compute. reflexivity. Qed.

(** The earlier variant panics on the same row. *)
Lemma variant_short_row_panics :
  variant.parseUsageRecord ["Jan-30-2018 06:08 PM"] = Panics (IndexOutOfRange 4 1).
Proof. vm_compute. reflexivity. Qed.

(** The reader's check of the number of fields: once the first record has
    fixed it, a record returned without error has that many fields. *)
Lemma Read_field_count r dst r' :
  csv.Read r = Ok (dst, None, r') ->
  (0 < csv.FieldsPerRecord r ->
   Z.of_nat (length dst) = csv.FieldsPerRecord r /\
   csv.FieldsPerRecord r' = csv.FieldsPerRecord r) /\
  (csv.FieldsPerRecord r = 0 ->
   csv.FieldsPerRecord r' = Z.of_nat (length dst)).
Proof.
  unfold csv.Read, csv.readRecord.
  destruct (csv.nextLine _ _) as [[[line [e|]] rest]|]; try discriminate.
  destruct (csv.parseFields _ _ _ _ _) as [[[fields err] rest']|]; [|discriminate].
  destruct (Z.ltb_spec 0 (csv.FieldsPerRecord r)) as [Hpos|Hle].
  - destruct err as [e|]; [discriminate|].
    destruct (Z.eqb_spec (Z.of_nat (length fields)) (csv.FieldsPerRecord r));
      cbn [negb]; [|discriminate].
    intros [= <- <-]. cbn [csv.FieldsPerRecord]. split; [auto | lia].
  - destruct (Z.eqb_spec (csv.FieldsPerRecord r) 0) as [E|E];
      intros [= <- -> <-]; cbn [csv.FieldsPerRecord]; split; auto; lia.
Qed.

(** A row of eleven fields or more is decoded or refused, without panic;
    without error there is a record. *)
Lemma parseUsageRecord_long_row row :
  (11 <= length row)%nat ->
  exists record err,
    parseUsageRecord row = Ok (record, err) /\
    (err = None -> exists r, record = Some r).
Proof.
  intros Hlen.
  assert (Hidx : forall i, (i < 11)%nat -> exists field, index row i = Ok field).
  { intros i Hi. rewrite index_nth_error.
    destruct (nth_error row i) eqn:E; [eauto|].
    apply nth_error_None in E. lia. }
  unfold parseUsageRecord.
  destruct (Hidx 0%nat ltac:(lia)) as [f0 ->]. run_outcome.
  destruct (time.Parse _ _) as [t [e|]]; [eexists _, _; split; [reflexivity | discriminate]|].
  destruct (Hidx 4%nat ltac:(lia)) as [f4 ->]. run_outcome.
  destruct (parseAmount f4) as [a [e|]]; [eexists _, _; split; [reflexivity | discriminate]|].
  destruct (Hidx 5%nat ltac:(lia)) as [f5 ->]. run_outcome.
  destruct (parseAmount f5) as [b [e|]]; [eexists _, _; split; [reflexivity | discriminate]|].
  destruct (Hidx 1%nat ltac:(lia)) as [f1 ->].
  destruct (Hidx 2%nat ltac:(lia)) as [f2 ->].
  destruct (Hidx 3%nat ltac:(lia)) as [f3 ->].
  destruct (Hidx 6%nat ltac:(lia)) as [f6 ->].
  destruct (Hidx 7%nat ltac:(lia)) as [f7 ->].
  destruct (Hidx 8%nat ltac:(lia)) as [f8 ->].
  destruct (Hidx 9%nat ltac:(lia)) as [f9 ->].
  destruct (Hidx 10%nat ltac:(lia)) as [f10 ->]. run_outcome.
  eexists _, _. split; [reflexivity | eauto].
Qed.

(** A record has a row of eleven fields or more behind it. *)
Lemma wellformed_long_row row record :
  wellformed row record -> (11 <= length row)%nat.
Proof.
  unfold wellformed, parseUsageRecord. intros H.
  destruct (index row 10) as [f10| |] eqn:E10.
  - apply index_Ok in E10.
    assert (nth_error row 10 <> None) as Hn by congruence.
    apply nth_error_Some in Hn. lia.
  - exfalso. revert H.
    repeat match goal with
           | |- context [index row ?i ≫= _] =>
               destruct (index row i); run_outcome; [|discriminate..]
           | |- context [match ?p with (_, _) => _ end] => destruct p as [? [?|]]
           end; discriminate.
  - rewrite index_nth_error in E10. by destruct (nth_error row 10).
Qed.

Lemma parseLoop_long_rows fuel : forall r lines,
  11 <= csv.FieldsPerRecord r ->
  (String.length (csv.input r) < fuel)%nat ->
  exists lines' err, parseLoop fuel r false lines = Ok (lines', err).
Proof.
  induction fuel as [|fuel IH]; intros r lines Hn Hfuel; [lia|].
  simpl. destruct (Read_returns r) as (dst & err & r' & Hread & Hres).
  rewrite Hread. run_outcome.
  destruct err as [e|]; [destruct e; eauto|].
  destruct Hres as [|Hlt]; [discriminate|].
  destruct (Read_field_count _ _ _ Hread) as [[Hlen Hr'] _]; [lia|].
  destruct (parseUsageRecord_long_row dst) as (record & err & -> & Hrec); [lia|].
  run_outcome. destruct err as [e|]; [eauto|].
  destruct (Hrec eq_refl) as [rec ->]. apply IH; lia.
Qed.

(** Under a header of eleven fields or more [Parse] does not panic: the
    reader refuses every row with another number of fields. *)
Lemma Parse_full_header_returns raw header r :
  csv.Read (csv.NewReader raw) = Ok (header, None, r) ->
  (11 <= length header)%nat ->
  exists lines err, Parse raw = Ok (lines, err).
Proof.
  intros Hread Hlen. unfold Parse. simpl parseLoop. rewrite Hread. run_outcome.
  cbn [negb].
  destruct (Read_returns (csv.NewReader raw)) as (dst & err & r' & Hr & Hres).
  rewrite Hread in Hr. injection Hr as <- <- <-.
  destruct Hres as [|Hlt]; [discriminate|].
  destruct (Read_field_count _ _ _ Hread) as [_ Hfirst].
  apply parseLoop_long_rows; [|exact Hlt].
  rewrite Hfirst by reflexivity. lia.
Qed.

(** ** The amount field *)

Lemma Replace_dollar amount :
  strings.Replace amount "$" "" (-1) = strings.without "$" amount.
Proof.
  unfold strings.Replace. cbn [String.eqb Ascii.eqb orb Z.eqb].
  change (String.eqb "$" "" || (-1 =? 0)) with false. cbv iota.
  induction amount as [|c amount IH]; [reflexivity|].
  cbn [strings.replaceFrom strings.without Z.eqb strings.HasPrefix Z.ltb Z.compare
       String.length Nat.pred].
  destruct (Ascii.eqb c "$"); [|by rewrite IH].
  assert (strings.HasPrefix amount "" = true) as -> by (by destruct amount).
  cbn [String.append]. exact IH.
Qed.


(** In the earlier variant an empty amount is an error: the field goes to
    [ParseFloat] as it is. *)
Lemma variant_empty_amount_error :
  variant.parseUsageRecord
    ["Jan-05-2024 09:00 AM"; "Purchase"; "Monthly Pass"; "Adult"; "";
     "$0.00"; ""; ""; ""; ""; ""]
  = Ok (None, Some (NumError "ParseFloat" "" ErrSyntax)).
Proof. vm_compute. reflexivity. Qed.

(** C10. Every ["$"] of the field is removed, wherever it stands, before
    the number is parsed: a field that is [val] with any number of ["$"]
    put in anywhere parses as [val] does; so ["1$2.50"] is 12.5 and
    ["12$"] is 12. *)
Theorem parseAmount_strips_every_dollar :
  (forall amount val,
      strings.without "$" amount = val -> val <> "" ->
      parseAmount amount = strconv.ParseFloat val) /\
  (forall amount, parseAmount amount = parseAmount (strings.without "$" amount)) /\
  (strconv.ratio (fst (parseAmount "1$2.50")) = Some (25, 2) /\
   snd (parseAmount "1$2.50") = None) /\
  (strconv.ratio (fst (parseAmount "12$")) = Some (12, 1) /\
   snd (parseAmount "12$") = None).
Proof.
  assert (Hidem : forall s, strings.without "$" (strings.without "$" s)
                            = strings.without "$" s).
  { induction s as [|c s IH]; [reflexivity|]. simpl.
    destruct (Ascii.eqb c "$") eqn:Hc; [exact IH|]. simpl. by rewrite Hc, IH. }
  split; [|split].
  - intros amount val Hval Hne. unfold parseAmount.
    rewrite Replace_dollar, Hval.
    destruct (String.eqb_spec val ""); [contradiction | reflexivity].
  - intros amount. unfold parseAmount. by rewrite !Replace_dollar, Hidem.
  - vm_compute. repeat split.
Qed.

Lemma parseAmount_strips_every_dollar_witness :
  parseAmount "$1$2$.5$0$" = strconv.ParseFloat "12.50".
Proof.
  apply (proj1 parseAmount_strips_every_dollar); [reflexivity | discriminate].
Defined.

(** ** The timestamp *)

(** The layout of the cache key, as [Format] cuts it. *)
Lemma monthKey_layout :
  time.chunks "2006-01" = ([("", time.stdLongYear); ("-", time.stdZeroMonth)], "").
Proof. reflexivity. Qed.


(** C6. ["Jan-30-2018 06:08 PM"] parses under the decoder's layout to
    January 30th 2018, 18:08 UTC: the layout reads the hour on its 24-hour
    element [15], on which 06 is six, and the PM marker adds twelve. *)
Theorem usageRecordLayout_example :
  time.chunks usageRecordLayout =
    ([ ("", time.stdMonth); ("-", time.stdZeroDay); ("-", time.stdLongYear);
       (" ", time.stdHour); (":", time.stdZeroMinute); (" ", time.stdPM) ], "") /\
  time.Parse usageRecordLayout "Jan-30-2018 06:08 PM"
  = (time.Date 2018 1 30 18 8 0 0 time.UTC, None) /\
  let t := fst (time.Parse usageRecordLayout "Jan-30-2018 06:08 PM") in
  (time.Year t, time.Month t, time.Day t) = (2018, 1, 30) /\
  time.Clock t = (18, 8, 0) /\ time.nsec t = 0 /\ time.offset t = time.UTC.
Proof. vm_compute. repeat split. Qed.

(** ** The month cache *)

Lemma Go_bind_eq {A B} (m : Go A) (k : A -> Go B) w :
  (m ≫= k) w = match m w with
               | (w', Ok a) => k a w'
               | (w', Panics p) => (w', Panics p)
               | (w', Diverges) => (w', Diverges)
               end.
Proof. reflexivity. Qed.

Lemma Go_ret_eq {A} (a : A) w : (mret a : Go A) w = (w, Ok a).
Proof. reflexivity. Qed.

Ltac run_go :=
  repeat (rewrite ?Go_bind_eq, ?Go_ret_eq;
          cbn [pure history emit cacheGet cachePut ReadFile
               cache files trace fst snd]).

(** What [lookup] does, case by case. *)
Lemma lookup_eq env s date ccsn w :
  let tr1 := (trace w ++ [EvLookup date ccsn])%list in
  let tr2 := (tr1 ++ [EvNew (username s) (password s)])%list in
  let startDate := lookupStart date in
  let endDate := time.AddDate startDate 0 1 (-1) in
  let tr3 := (tr2 ++ [EvUsage ccsn startDate endDate])%list in
  lookup env s date ccsn w =
  match signIn env tr1 (username s) (password s) with
  | Some e => (mkWorld (cache w) (files w) tr2, Ok ([], "", Some e))
  | None =>
      match usageExport env tr2 ccsn startDate endDate with
      | (bs, Some e) => (mkWorld (cache w) (files w) tr3, Ok ([], "", Some e))
      | (bs, None) =>
          (mkWorld (cache w) (files w) tr3,
           match Parse bs with
           | Ok (lines, None) => Ok (lines, bs, None)
           | Ok (lines, Some e) => Ok ([], "", Some e)
           | Panics p => Panics p
           | Diverges => Diverges
           end)
      end
  end.
Proof.
  unfold lookup, New, Usage, lookupStart. run_go.
  destruct (signIn env _ _ _); run_go; [reflexivity|].
  destruct (usageExport env _ _ _ _) as [bs [e|]]; run_go; [reflexivity|].
  destruct (Parse bs) as [[lines [e|]]| |]; reflexivity.
Qed.


(** The fetcher leaves the cache and the files alone, and adds to the
    trace its own call, the sign-in and, when that worked, the export. *)
Lemma lookup_frame env s date ccsn w :
  let w' := fst (lookup env s date ccsn w) in
  cache w' = cache w /\ files w' = files w /\
  trace w' = (trace w ++ fetchEvents env s date ccsn (trace w))%list.
Proof.
  cbn zeta. rewrite lookup_eq. cbn zeta. unfold fetchEvents.
  destruct (signIn env _ _ _); cbn [fst cache files trace].
  - by rewrite <- !app_assoc.
  - destruct (usageExport env _ _ _ _) as [bs [e|]]; cbn [fst cache files trace];
      by rewrite <- !app_assoc.
Qed.

Lemma count_fetchEvents env s date ccsn tr :
  count isFetch (fetchEvents env s date ccsn tr) = 1%nat /\
  count isCacheAccess (fetchEvents env s date ccsn tr) = 0%nat /\
  count isFileRead (fetchEvents env s date ccsn tr) = 0%nat /\
  count isFileWrite (fetchEvents env s date ccsn tr) = 0%nat.
Proof. unfold fetchEvents. by destruct (signIn env _ _ _). Qed.

Lemma lookup_success env s date ccsn w w' records raw :
  lookup env s date ccsn w = (w', Ok (records, raw, None)) ->
  Parse raw = Ok (records, None) /\
  cache w' = cache w /\ files w' = files w /\
  trace w' = (trace w ++ fetchEvents env s date ccsn (trace w))%list.
Proof.
  intros H. pose proof (lookup_frame env s date ccsn w) as Hframe.
  rewrite H in Hframe. cbn zeta in Hframe. cbn [fst] in Hframe.
  destruct Hframe as (Hc & Hf & Ht).
  rewrite lookup_eq in H. cbn zeta in H.
  destruct (signIn env _ _ _); [discriminate|].
  destruct (usageExport env _ _ _ _) as [bs [e|]]; [discriminate|].
  destruct (Parse bs) as [[lines [e|]]| |] eqn:HP; try discriminate.
  injection H as _ <- <-. auto.
Qed.

(** A hit in the in-memory tier. *)
Lemma lookupAndCache_hit env s date ccsn w records :
  cache w !! time.FormatYearMonth date = Some records ->
  lookupAndCache env s date ccsn w =
  (mkWorld (cache w) (files w)
           (trace w ++ [EvCacheGet (time.FormatYearMonth date)])%list,
   Ok (records, None)).
Proof. intros H. unfold lookupAndCache. run_go. by rewrite H. Qed.

(** The path of a miss in both tiers. *)
Lemma lookupAndCache_miss env s date ccsn w :
  let key := time.FormatYearMonth date in
  let cacheFile := cacheFileName s ccsn key in
  cache w !! key = None ->
  files w !! cacheFile = None ->
  lookupAndCache env s date ccsn w =
  match lookup env s date ccsn
          (mkWorld (cache w) (files w)
                   (trace w ++ [EvCacheGet key; EvReadFile cacheFile])%list) with
  | (w2, Ok (records, raw, None)) =>
      match WriteFile env cacheFile raw
              (mkWorld (<[key := records]> (cache w2)) (files w2)
                       (trace w2 ++ [EvCachePut key])%list) with
      | (w3, Ok err) => (w3, Ok (records, err))
      | (w3, Panics p) => (w3, Panics p)
      | (w3, Diverges) => (w3, Diverges)
      end
  | (w2, Ok (_, _, Some e)) => (w2, Ok ([], Some e))
  | (w2, Panics p) => (w2, Panics p)
  | (w2, Diverges) => (w2, Diverges)
  end.
Proof.
  cbn zeta. intros Hc Hf. unfold lookupAndCache. run_go. rewrite Hc. run_go.
  rewrite Hf. run_go. rewrite <- app_assoc. cbn [app].
  destruct (lookup env s date ccsn _) as [w2 [[[records raw] [e|]]| |]];
    run_go; try reflexivity.
Qed.

Lemma WriteFile_eq env filename data w :
  WriteFile env filename data w =
  (mkWorld (cache w)
           match writeFault env (trace w) filename data with
           | None => <[filename := data]> (files w)
           | Some (_, Some partial) => <[filename := partial]> (files w)
           | Some (_, None) => files w
           end
           (trace w ++ [EvWriteFile filename data])%list,
   Ok match writeFault env (trace w) filename data with
      | None => None
      | Some (e, _) => Some e
      end).
Proof.
  unfold WriteFile. by destruct (writeFault env _ _ _) as [[e [partial|]]|].
Qed.

(** C9. On the fetch path of a cached lookup (a miss in memory and on
    disk), when the fetch and the decoding succeed and the write of the raw
    bytes then fails with [e], the call returns the error [e], although the
    records are valid and the in-memory tier already holds them. *)
Theorem lookupAndCache_write_failure env s date ccsn w w2 records raw e partial :
  let key := time.FormatYearMonth date in
  let cacheFile := cacheFileName s ccsn key in
  cache w !! key = None ->
  files w !! cacheFile = None ->
  lookup env s date ccsn
    (mkWorld (cache w) (files w)
             (trace w ++ [EvCacheGet key; EvReadFile cacheFile])%list)
    = (w2, Ok (records, raw, None)) ->
  writeFault env (trace w2 ++ [EvCachePut key])%list cacheFile raw
    = Some (e, partial) ->
  exists w3,
    lookupAndCache env s date ccsn w = (w3, Ok (records, Some e)) /\
    Parse raw = Ok (records, None) /\
    cache w3 !! key = Some records.
Proof.
  cbn zeta. intros Hc Hf Hlookup Hwrite.
  pose proof (lookupAndCache_miss env s date ccsn w Hc Hf) as Heq.
  cbn zeta in Heq. rewrite Hlookup, WriteFile_eq in Heq.
  cbn [trace] in Heq. rewrite Hwrite in Heq.
  eexists. split; [exact Heq|]. split.
  - by apply lookup_success in Hlookup as [? _].
  - cbn [cache]. apply lookup_insert_eq.
Qed.

Lemma append_length s1 s2 :
  String.length (s1 ++ s2) = (String.length s1 + String.length s2)%nat.
Proof. induction s1 as [|c s1 IH]; simpl; [reflexivity | by rewrite IH]. Qed.

Lemma append_inj_r s1 : forall s2 t, s1 ++ t = s2 ++ t -> s1 = s2.
Proof.
  induction s1 as [|c s1 IH]; intros [|d s2] t H.
  - reflexivity.
  - apply (f_equal String.length) in H. rewrite !append_length in H. simpl in H. lia.
  - apply (f_equal String.length) in H. rewrite !append_length in H. simpl in H. lia.
  - simpl in H. injection H as -> H. f_equal. by apply (IH s2 t).
Qed.

(** The cache files are keyed by card and month. *)
Lemma cacheFileName_inj s c1 c2 key :
  cacheFileName s c1 key = cacheFileName s c2 key -> c1 = c2.
Proof.
  unfold cacheFileName. intros H.
  apply String.app_inj in H. apply (String.app_inj "/") in H.
  by apply append_inj_r in H.
Qed.

(** A lookup that returns without error leaves its records in the
    in-memory tier, under the month alone. *)
Lemma lookupAndCache_cached env s date ccsn w w1 records :
  lookupAndCache env s date ccsn w = (w1, Ok (records, None)) ->
  cache w1 !! time.FormatYearMonth date = Some records.
Proof.
  unfold lookupAndCache. run_go.
  destruct (cache w !! time.FormatYearMonth date) as [cached|] eqn:Hc; run_go.
  { intros [= <- <-]. exact Hc. }
  destruct (files w !! _) as [bs|]; run_go.
  - destruct (Parse bs) as [[lines [e|]]| |]; run_go; try discriminate.
    intros [= <- <-]. cbn [cache]. apply lookup_insert_eq.
  - destruct (lookup env s date ccsn _) as [w2 [[[lines raw] [e|]]| |]];
      run_go; try discriminate.
    rewrite WriteFile_eq. cbn [trace cache files].
    intros [= <- <- _]. cbn [cache]. apply lookup_insert_eq.
Qed.

(** C1. The in-memory tier is keyed by the month string alone: after a
    cached lookup for card [c1] and a date of month [m] has returned
    [records] without error, a cached lookup for another card [c2] and a
    date of the same month returns those records; it only consults the
    in-memory tier (no file is read, the fetcher is not called, nothing
    changes), although the cache file of [c2] is not the one of [c1]. *)
Theorem lookupAndCache_memory_tier_keyed_by_month
        env s date1 date2 c1 c2 w w1 records :
  c1 <> c2 ->
  time.FormatYearMonth date1 = time.FormatYearMonth date2 ->
  lookupAndCache env s date1 c1 w = (w1, Ok (records, None)) ->
  lookupAndCache env s date2 c2 w1 =
    (mkWorld (cache w1) (files w1)
             (trace w1 ++ [EvCacheGet (time.FormatYearMonth date2)])%list,
     Ok (records, None)) /\
  cacheFileName s c1 (time.FormatYearMonth date1)
    <> cacheFileName s c2 (time.FormatYearMonth date2).
Proof.
  intros Hne Hkey Hfirst. split.
  - apply lookupAndCache_hit. rewrite <- Hkey.
    by apply lookupAndCache_cached in Hfirst.
  - rewrite <- Hkey. intros H. by apply cacheFileName_inj in H.
Qed.



(** C3. A request for the current month is answered by a live fetch: the
    handler calls the fetcher exactly once (the sign-in and, when it works,
    the usage export), whatever the in-memory tier and the cache directory
    hold; it neither looks at them nor changes them. *)
Theorem ServeHTTP_current_month_bypasses_cache env s req w year month :
  strconv.Atoi (queryYear req) = (year, None) ->
  strconv.Atoi (queryMonth req) = (month, None) ->
  1 <= month <= 12 ->
  let date := time.Date year month 1 0 0 0 0 time.UTC in
  isCurrentMonth (Now env (trace w)) date = true ->
  let w' := fst (ServeHTTP env s req w) in
  let fetched := fetchEvents env s date (path req) (trace w) in
  cache w' = cache w /\ files w' = files w /\
  trace w' = (trace w ++ fetched)%list /\
  count isFetch fetched = 1%nat /\
  count isCacheAccess fetched = 0%nat /\
  count isFileRead fetched = 0%nat /\
  count isFileWrite fetched = 0%nat.
Proof.
  intros Hyear Hmonth Hrange date Hcurrent. cbn zeta.
  pose proof (count_fetchEvents env s date (path req) (trace w)) as (H1 & H2 & H3 & H4).
  pose proof (lookup_frame env s date (path req) w) as (Hc & Hf & Ht).
  repeat split; try assumption.
  all: unfold ServeHTTP; rewrite Hyear, Hmonth;
    destruct ((month <? 1) || (12 <? month)) eqn:Hm; [lia|]; run_go;
    fold date; rewrite Hcurrent; run_go;
    destruct (lookup env s date (path req) w) as [w2 [[[records raw] [e|]]| |]];
    cbn [fst] in *; assumption.
Qed.

(** ** The scenario *)

Lemma Parse_examplePayload : Parse examplePayload = Ok ([exampleRecord], None).
Proof. vm_compute. reflexivity. Qed.

Lemma lookupAndCache_write_failure_witness :
  exists w3,
    lookupAndCache diskFull exampleServer january2024 "0123" emptyWorld
    = (w3, Ok ([exampleRecord],
               Some (PathError "write"
                       (cacheFileName exampleServer "0123"
                                      (time.FormatYearMonth january2024))))) /\
    Parse examplePayload = Ok ([exampleRecord], None) /\
    cache w3 !! time.FormatYearMonth january2024 = Some [exampleRecord].
Proof.
  apply (lookupAndCache_write_failure diskFull exampleServer january2024 "0123"
           emptyWorld
           (fst (lookup diskFull exampleServer january2024 "0123"
                   (mkWorld ∅ ∅
                      [EvCacheGet (time.FormatYearMonth january2024);
                       EvReadFile (cacheFileName exampleServer "0123"
                                     (time.FormatYearMonth january2024))])))
           [exampleRecord] examplePayload _ None).
  - reflexivity.
  - reflexivity.
  - vm_compute. reflexivity.
  - reflexivity.
Defined.

Lemma lookupAndCache_memory_tier_keyed_by_month_witness :
  let w1 := fst (lookupAndCache portalUp exampleServer january2024 "0123" emptyWorld) in
  let date2 := time.Date 2024 1 20 8 30 0 0 time.UTC in
  lookupAndCache portalUp exampleServer date2 "4567" w1 =
    (mkWorld (cache w1) (files w1)
             (trace w1 ++ [EvCacheGet (time.FormatYearMonth date2)])%list,
     Ok ([exampleRecord], None)) /\
  cacheFileName exampleServer "0123" (time.FormatYearMonth january2024)
    <> cacheFileName exampleServer "4567" (time.FormatYearMonth date2).
Proof.
  cbn zeta.
  apply (lookupAndCache_memory_tier_keyed_by_month portalUp exampleServer
           january2024 (time.Date 2024 1 20 8 30 0 0 time.UTC) "0123" "4567" emptyWorld).
  - discriminate.
  - vm_compute. reflexivity.
  - vm_compute. reflexivity.
Defined.



Lemma ServeHTTP_current_month_bypasses_cache_witness :
  let w := mkWorld {[ "2024-03" := [exampleRecord] ]} ∅ [] in
  let w' := fst (ServeHTTP portalUp exampleServer (mkRequest "0123" "2024" "3") w) in
  cache w' = cache w /\ files w' = files w /\
  count isFetch (trace w') = 1%nat.
Proof.
  cbn zeta.
  destruct (ServeHTTP_current_month_bypasses_cache portalUp exampleServer
              (mkRequest "0123" "2024" "3")
              (mkWorld {[ "2024-03" := [exampleRecord] ]} ∅ []) 2024 3)
    as (Hc & Hf & Ht & Hn & _).
  - reflexivity.
  - reflexivity.
  - lia.
  - vm_compute. reflexivity.
  - split; [exact Hc|]. split; [exact Hf|]. rewrite Ht. exact Hn.
Defined.


(** ** Calendar arithmetic *)

Section Calendar.
Import time.













End Calendar.



